(** * terraform-provider-pgp: the decryption pipeline of [pgp/data_decrypt.go]

    A shallow embedding of [getPrivateKeyPacket] and [decrypt].  The
    functions of the imported packages ([armor], [openpgp], [packet],
    [gzip], [ioutil], [bytes]) are not part of the repository: the ones
    whose behaviour is fixed by their documentation ([bytes.NewReader],
    [ioutil.ReadAll], [errors.New], [fmt.Errorf]) are written out, the
    others are the fields of a [Library] record over which every theorem
    quantifies.  The caller [dataSourceDecryptRead] and the [ValidateFunc]
    of the schema follow, over a [Host] record for what they take from
    [base64], [sha256] and [fmt]. *)

From Stdlib Require Import Lists.List Strings.String Strings.Ascii Strings.Byte.
From Stdlib Require Import Arith.PeanoNat.
Import ListNotations.
Open Scope string_scope.
Open Scope list_scope.

(** Go's [[]byte]. *)
Definition bytes : Type := list byte.

(** ** Function bodies with early [return] and [defer]

    [decrypt] leaves through seven [return] statements and registers one
    deferred call.  A body is a state transformer over the effects seen so
    far and the stack of deferred calls; it either has returned ([inl]) or
    goes on with a value ([inr]). *)

Inductive event : Type :=
| gzip_Reader_new      (* gzip.NewReader handed out a reader *)
| gzip_Reader_Close.   (* Close was called on that reader *)

Definition event_eqb (a b : event) : bool :=
  match a, b with
  | gzip_Reader_new, gzip_Reader_new => true
  | gzip_Reader_Close, gzip_Reader_Close => true
  | _, _ => false
  end.

Record frame : Type := mkFrame {
  trace : list event;      (* effects so far, oldest first *)
  deferred : list event    (* deferred calls, most recent first *)
}.

Definition Fn (R A : Type) : Type := frame -> frame * (R + A).

Definition pure {R A} (a : A) : Fn R A := fun s => (s, inr a).

Definition Return {R A} (r : R) : Fn R A := fun s => (s, inl r).

Definition bind {R A B} (m : Fn R A) (k : A -> Fn R B) : Fn R B :=
  fun s =>
    match m s with
    | (s', inl r) => (s', inl r)
    | (s', inr a) => k a s'
    end.

Definition emit {R} (e : event) : Fn R unit :=
  fun s => (mkFrame (trace s ++ [e]) (deferred s), inr tt).

Definition defer {R} (e : event) : Fn R unit :=
  fun s => (mkFrame (trace s) (e :: deferred s), inr tt).

(** Leaving the function runs the deferred calls, last registered first. *)
Definition call {R} (body : Fn R R) : list event * R :=
  match body (mkFrame [] []) with
  | (s, inl r) | (s, inr r) => (trace s ++ deferred s, r)
  end.

Declare Scope fn_scope.
Delimit Scope fn_scope with fn.
Notation "x <- m ;; k" := (bind m (fun x => k))
  (at level 100, m at next level, right associativity) : fn_scope.
Notation "m ;; k" := (bind m (fun _ => k))
  (at level 100, right associativity) : fn_scope.

(** [if c { return r }] *)
Definition return_if {R} (c : bool) (r : R) : Fn R unit :=
  if c then Return r else pure tt.

Definition count_event (e : event) (t : list event) : nat :=
  List.length (filter (event_eqb e) t).

Section Pipeline.

(** Types of the imported packages: their error values,
    [openpgp.Entity], [openpgp.PromptFunction] and [packet.Config]. *)
Variable liberr : Type.
Variable Entity : Type.
Variable PromptFunction : Type.
Variable Config : Type.

(** Go's [error] as this file meets it: a package's error passed on
    unchanged, or the string error that [errors.New] and [fmt.Errorf]
    (without [%w]) build. *)
Inductive error : Type :=
| LibErr (e : liberr)
| errorString (s : string).

Definition errors_New (s : string) : error := errorString s.

(** An [io.Reader] seen from its consumer: the bytes it yields before
    it stops, and the error it stops with ([None] for [io.EOF]). *)
Record Reader : Type := mkReader {
  content : bytes;
  fault : option liberr
}.

Definition bytes_NewReader (b : bytes) : Reader := mkReader b None.

(** [ioutil.ReadAll]: everything read until the reader stops, and the
    error it stopped with when that is not [io.EOF]. *)
Definition ioutil_ReadAll (r : Reader) : bytes * option liberr :=
  (content r, fault r).

(** [armor.Block] *)
Record Block : Type := mkBlock {
  Type_ : string;
  Header : list (string * string);
  Body : Reader
}.

(** [openpgp.MessageDetails], the fields about the body and about the
    signature. *)
Record MessageDetails : Type := mkMessageDetails {
  IsEncrypted : bool;
  IsSigned : bool;
  UnverifiedBody : Reader;
  SignatureError : option liberr
}.

Definition EntityList : Type := list Entity.

(** [packet.Reader]: a packet parser over an [io.Reader]. *)
Record packet_Reader : Type := mk_packet_Reader {
  unread : Reader
}.

Definition packet_NewReader (r : Reader) : packet_Reader :=
  mk_packet_Reader r.

(** What the imported packages provide and the source leaves open: the
    [Error()] method of their errors, the constant
    [openpgp.PrivateKeyType], and the calls into [armor], [openpgp] and
    [gzip].  A call that Go writes [(v, err)] is a sum: [inl err] or
    [inr v].  [openpgp_ReadEntity] also gives the packet reader as the
    call leaves it. *)
Record Library : Type := mkLibrary {
  Error : liberr -> string;
  openpgp_PrivateKeyType : string;
  armor_Decode : Reader -> liberr + Block;
  openpgp_ReadEntity : packet_Reader -> (liberr + Entity) * packet_Reader;
  openpgp_ReadMessage :
    Reader -> EntityList -> option PromptFunction -> option Config ->
    liberr + MessageDetails;
  gzip_NewReader : Reader -> liberr + Reader
}.

Definition result : Type := bytes * option error.

(** [v, err := f(...); if err != nil { return r }] *)
Definition or_return {A} (x : liberr + A) (r : liberr -> result)
  : Fn result A :=
  match x with
  | inl err => Return (r err)
  | inr v => pure v
  end.

(** The same for [ioutil.ReadAll], which gives bytes with its error. *)
Definition read_or_return (x : bytes * option liberr)
    (r : liberr -> result) : Fn result bytes :=
  match snd x with
  | Some err => Return (r err)
  | None => pure (fst x)
  end.

Variable L : Library.

(** [fmt.Errorf(prefix + "%v", err)] *)
Definition fmt_Errorf (prefix : string) (err : liberr) : error :=
  errorString (prefix ++ Error L err)%string.

(** [getPrivateKeyPacket], lines 91-104. *)
Definition getPrivateKeyPacket (privateKey : bytes)
  : option Entity * option error :=
  let privateKeyReader := bytes_NewReader privateKey in
  match armor_Decode L privateKeyReader with
  | inl err => (None, Some (LibErr err))
  | inr block =>
      if negb (Type_ block =? openpgp_PrivateKeyType L)%string then
        (None, Some (errors_New "Invalid private key data"))
      else
        let packetReader := packet_NewReader (Body block) in
        match fst (openpgp_ReadEntity L packetReader) with
        | inl err => (None, Some (LibErr err))
        | inr entity => (Some entity, None)
        end
  end.

(** The body of [decrypt], lines 106-164. *)
Definition decrypt_body (entity : Entity) (encrypted : bytes)
    (encoding : string) : Fn result result :=
  (let entityList := [entity] in
   messageReader <-
     (if (encoding =? "armored")%string then
        block <- or_return (armor_Decode L (bytes_NewReader encrypted))
                   (fun err => ([], Some (fmt_Errorf "Error decoding: " err))) ;;
        return_if (negb (Type_ block =? "Message")%string)
          ([], Some (errors_New "Invalid message type")) ;;
        or_return (openpgp_ReadMessage L (Body block) entityList None None)
          (fun err => ([], Some (fmt_Errorf "Error reading message: " err)))
      else
        or_return
          (openpgp_ReadMessage L (bytes_NewReader encrypted) entityList
             None None)
          (fun err => ([], Some (fmt_Errorf "Error reading message: " err)))) ;;
   read <- read_or_return (ioutil_ReadAll (UnverifiedBody messageReader))
             (fun err =>
                ([], Some (fmt_Errorf "Error reading unverified body: " err))) ;;
   if (encoding =? "armored")%string then
     let reader := bytes_NewReader read in
     uncompressed <- or_return (gzip_NewReader L reader)
                       (fun err =>
                          ([], Some (fmt_Errorf
                                       "Error initializing gzip reader: " err))) ;;
     emit gzip_Reader_new ;;
     defer gzip_Reader_Close ;;
     out <- read_or_return (ioutil_ReadAll uncompressed)
              (fun err => ([], Some (LibErr err))) ;;
     Return (out, None)
   else
     out <- read_or_return (ioutil_ReadAll (bytes_NewReader read))
              (fun err => ([], Some (LibErr err))) ;;
     Return (out, None))%fn.

(** [decrypt] as its caller sees it: the effects of the call, then the
    pair it returns. *)
Definition decrypt_call (entity : Entity) (encrypted : bytes)
    (encoding : string) : list event * result :=
  call (decrypt_body entity encrypted encoding).

Definition decrypt (entity : Entity) (encrypted : bytes)
    (encoding : string) : result :=
  snd (decrypt_call entity encrypted encoding).

Definition decrypt_effects (entity : Entity) (encrypted : bytes)
    (encoding : string) : list event :=
  fst (decrypt_call entity encrypted encoding).

(** The reader that lines 113-132 hand to [openpgp.ReadMessage], when
    they get that far: the body of the armored block once its type has
    been checked, or a reader over the input as it is. *)
Definition message_stream (encrypted : bytes) (encoding : string)
  : option Reader :=
  if (encoding =? "armored")%string then
    match armor_Decode L (bytes_NewReader encrypted) with
    | inl _ => None
    | inr block =>
        if (Type_ block =? "Message")%string then Some (Body block) else None
    end
  else Some (bytes_NewReader encrypted).

End Pipeline.

Arguments LibErr {liberr} e.
Arguments errorString {liberr} s.
Arguments errors_New {liberr} s.
Arguments mkReader {liberr} content fault.
Arguments content {liberr} r.
Arguments fault {liberr} r.
Arguments bytes_NewReader {liberr} b.
Arguments ioutil_ReadAll {liberr} r.
Arguments mkBlock {liberr} Type_ Header Body.
Arguments Type_ {liberr} b.
Arguments Header {liberr} b.
Arguments Body {liberr} b.
Arguments mkMessageDetails {liberr} IsEncrypted IsSigned UnverifiedBody
  SignatureError.
Arguments IsEncrypted {liberr} m.
Arguments IsSigned {liberr} m.
Arguments UnverifiedBody {liberr} m.
Arguments SignatureError {liberr} m.
Arguments mk_packet_Reader {liberr} unread.
Arguments unread {liberr} p.
Arguments packet_NewReader {liberr} r.
Arguments mkLibrary {liberr Entity PromptFunction Config}.
Arguments Error {liberr Entity PromptFunction Config} L e : rename.
Arguments openpgp_PrivateKeyType {liberr Entity PromptFunction Config} L
  : rename.
Arguments armor_Decode {liberr Entity PromptFunction Config} L r : rename.
Arguments openpgp_ReadEntity {liberr Entity PromptFunction Config} L p
  : rename.
Arguments openpgp_ReadMessage {liberr Entity PromptFunction Config} L r
  keyring prompt config : rename.
Arguments gzip_NewReader {liberr Entity PromptFunction Config} L r : rename.
Arguments or_return {liberr A} x r.
Arguments read_or_return {liberr} x r.
Arguments fmt_Errorf {liberr Entity PromptFunction Config} L prefix err.
Arguments getPrivateKeyPacket {liberr Entity PromptFunction Config} L
  privateKey.
Arguments decrypt_body {liberr Entity PromptFunction Config} L entity
  encrypted encoding.
Arguments decrypt_call {liberr Entity PromptFunction Config} L entity
  encrypted encoding.
Arguments decrypt {liberr Entity PromptFunction Config} L entity encrypted
  encoding.
Arguments decrypt_effects {liberr Entity PromptFunction Config} L entity
  encrypted encoding.
Arguments message_stream {liberr Entity PromptFunction Config} L encrypted
  encoding.

(** ** The two tails of [decrypt]

    Used to state the lemmas that unfold a call path by path. *)

Section Tails.

Context {liberr Entity PromptFunction Config : Type}.

Variable L : Library liberr Entity PromptFunction Config.

(** What [decrypt] does after [openpgp.ReadMessage] has answered, on
    the path with gzip (lines 134-154). *)
Definition after_read_armored (m : liberr + MessageDetails liberr)
  : list event * result liberr :=
  match m with
  | inl err => ([], ([], Some (fmt_Errorf L "Error reading message: " err)))
  | inr md =>
      match fault (UnverifiedBody md) with
      | Some err =>
          ([], ([], Some (fmt_Errorf L "Error reading unverified body: " err)))
      | None =>
          match gzip_NewReader L
                  (bytes_NewReader (content (UnverifiedBody md))) with
          | inl err =>
              ([], ([], Some (fmt_Errorf L
                                "Error initializing gzip reader: " err)))
          | inr z =>
              ([gzip_Reader_new; gzip_Reader_Close],
               match fault z with
               | Some err => ([], Some (LibErr err))
               | None => (content z, None)
               end)
          end
      end
  end.

(** The same on the path without gzip (lines 134-137 and 157-163). *)
Definition after_read_raw (m : liberr + MessageDetails liberr)
  : list event * result liberr :=
  match m with
  | inl err => ([], ([], Some (fmt_Errorf L "Error reading message: " err)))
  | inr md =>
      match fault (UnverifiedBody md) with
      | Some err =>
          ([], ([], Some (fmt_Errorf L "Error reading unverified body: " err)))
      | None => ([], (content (UnverifiedBody md), None))
      end
  end.

(** The packages with another message reader in place of
    [openpgp.ReadMessage]. *)
Definition with_ReadMessage
    (rm : Reader liberr -> EntityList Entity -> option PromptFunction ->
          option Config -> liberr + MessageDetails liberr)
  : Library liberr Entity PromptFunction Config :=
  mkLibrary (Error L) (openpgp_PrivateKeyType L) (armor_Decode L)
    (openpgp_ReadEntity L) rm (gzip_NewReader L).

(** Two answers of a message reader that differ at most in what they
    say about the signature. *)
Definition same_unverified (x y : liberr + MessageDetails liberr) : Prop :=
  match x, y with
  | inl e, inl e' => e = e'
  | inr md, inr md' => UnverifiedBody md = UnverifiedBody md'
  | _, _ => False
  end.

(** The message reader reports a fault, at once or while the body is
    drained. *)
Definition read_fails (m : liberr + MessageDetails liberr) : bool :=
  match m with
  | inl _ => true
  | inr md =>
      match fault (UnverifiedBody md) with
      | Some _ => true
      | None => false
      end
  end.

End Tails.

Arguments with_ReadMessage {liberr Entity PromptFunction Config} L rm.
Arguments same_unverified {liberr} x y.
Arguments read_fails {liberr} m.

(** ** A small instance of the packages

    A stand-in for the imported packages, small enough to evaluate, on
    which the theorems below are run.  Its formats are not OpenPGP's:
    - an armored block is a tag byte ([K] private key, [P] public key,
      [M] message) followed by the body; any other tag, or no byte at
      all, is a framing error;
    - a key block's body is a sequence of one-byte entities;
    - a message is the recipient's key id, the length of the payload,
      and the payload; a payload shorter than its length is cut off;
    - a gzip stream is [1f 8b], the data stored as it is, and a final
      [00]; without the final byte the stream is cut off. *)
Module Toy.

Definition liberr : Type := string.
Definition Entity : Type := nat.
Definition PromptFunction : Type := unit.
Definition Config : Type := unit.

Definition armor_Decode (r : Reader liberr) : liberr + Block liberr :=
  match content r with
  | "K"%byte :: body =>
      inr (mkBlock "PGP PRIVATE KEY BLOCK" [] (mkReader body (fault r)))
  | "P"%byte :: body =>
      inr (mkBlock "PGP PUBLIC KEY BLOCK" [] (mkReader body (fault r)))
  | "M"%byte :: body =>
      inr (mkBlock "Message" [] (mkReader body (fault r)))
  | _ => inl "EOF"
  end.

Definition openpgp_ReadEntity (p : packet_Reader liberr)
  : (liberr + Entity) * packet_Reader liberr :=
  match content (unread p) with
  | k :: rest =>
      (inr (Byte.to_nat k),
       mk_packet_Reader (mkReader rest (fault (unread p))))
  | [] => (inl "openpgp: invalid argument: no armored data found", p)
  end.

Definition holds_key (keyring : list Entity) (k : byte) : bool :=
  existsb (Nat.eqb (Byte.to_nat k)) keyring.

Definition openpgp_ReadMessage (r : Reader liberr) (keyring : list Entity)
    (prompt : option PromptFunction) (config : option Config)
  : liberr + MessageDetails liberr :=
  match content r with
  | k :: n :: payload =>
      if holds_key keyring k then
        let body :=
          if (Byte.to_nat n <=? List.length payload)%nat then
            mkReader (firstn (Byte.to_nat n) payload) None
          else
            mkReader payload (Some "unexpected EOF")
        in
        inr (mkMessageDetails true false body None)
      else inl "openpgp: incorrect key"
  | _ =>
      inl match fault r with
          | Some e => e
          | None => "EOF"
          end
  end.

Definition gzip_NewReader (r : Reader liberr) : liberr + Reader liberr :=
  match content r with
  | x1f :: x8b :: data =>
      match rev data with
      | x00 :: atad => inr (mkReader (rev atad) None)
      | _ => inr (mkReader data (Some "unexpected EOF"))
      end
  | _ => inl "gzip: invalid header"
  end.

Definition lib : Library liberr Entity PromptFunction Config :=
  mkLibrary (fun e => e) "PGP PRIVATE KEY BLOCK" armor_Decode
    openpgp_ReadEntity openpgp_ReadMessage gzip_NewReader.

(** The same packages with a message reader that reports every
    message as signed with a signature that does not verify, and
    that refuses to work when given a prompt or a configuration. *)
Definition openpgp_ReadMessage_signed (r : Reader liberr)
    (keyring : list Entity) (prompt : option PromptFunction)
    (config : option Config) : liberr + MessageDetails liberr :=
  match prompt, config with
  | None, None =>
      match openpgp_ReadMessage r keyring None None with
      | inl e => inl e
      | inr md =>
          inr (mkMessageDetails true true (UnverifiedBody md)
                 (Some "openpgp: invalid signature: hash tag doesn't match"))
      end
  | _, _ => inl "openpgp: unsupported feature"
  end.

(** The same packages without armor and without gzip. *)
Definition lib_bare : Library liberr Entity PromptFunction Config :=
  mkLibrary (fun e => e) "PGP PRIVATE KEY BLOCK" (fun _ => inl "EOF")
    openpgp_ReadEntity openpgp_ReadMessage
    (fun _ => inl "gzip: invalid header").

Definition b (s : string) : bytes := list_byte_of_string s.

(** [hello world] stored as gzip, encrypted to key 7, armored. *)
Definition gz_hello : bytes :=
  [x1f; x8b] ++ b "hello world" ++ [x00].

Definition msg_hello : bytes := [x07; x0e] ++ gz_hello.

Definition armored_hello : bytes := "M"%byte :: msg_hello.

(** The same armored message after the loss of its last three bytes. *)
Definition armored_cut : bytes := firstn 14 armored_hello.

(** An armored message whose gzip stream lacks its final byte. *)
Definition armored_bad_gzip : bytes :=
  ["M"%byte; x07; x04; x1f; x8b; "h"%byte; "i"%byte].

(** A private key block with two entities, 7 then 9. *)
Definition armored_key : bytes := ["K"%byte; x07; x09].

Definition armored_public_key : bytes := ["P"%byte; x07].

End Toy.

(** ** The data source: [ValidateFunc] and [dataSourceDecryptRead]

    The caller of the pipeline, lines 42-50 and 56-87. *)

(** [schema.ResourceData] as [dataSourceDecryptRead] uses it: the
    attribute values by name as [Get] presents them (the defaults of the
    schema applied), the most recently set first, and the resource id. *)
Record ResourceData : Type := mkResourceData {
  attributes : list (string * string);
  Id : string
}.

(** [d.Get(key).(string)]; an attribute never set reads as the empty
    string. *)
Definition Get (d : ResourceData) (key : string) : string :=
  match find (fun kv => (fst kv =? key)%string) (attributes d) with
  | Some kv => snd kv
  | None => EmptyString
  end.

(** [d.Set(key, value)] *)
Definition Set_ (d : ResourceData) (key value : string) : ResourceData :=
  mkResourceData ((key, value) :: attributes d) (Id d).

(** [d.SetId(v)] *)
Definition SetId (d : ResourceData) (v : string) : ResourceData :=
  mkResourceData (attributes d) v.

(** [fmt.Sprintf("%x", b)] on a byte slice: two lower-case hexadecimal
    digits for every byte. *)
Definition hex_digit (n : nat) : Ascii.ascii :=
  nth n (list_ascii_of_string "0123456789abcdef") "0"%char.

Definition hex_byte (x : byte) : string :=
  String (hex_digit (Byte.to_nat x / 16))
    (String (hex_digit (Byte.to_nat x mod 16)) EmptyString).

Fixpoint Sprintf_x (b : bytes) : string :=
  match b with
  | [] => EmptyString
  | x :: rest => (hex_byte x ++ Sprintf_x rest)%string
  end.

Section DataSource.

Context {liberr Entity PromptFunction Config : Type}.

(** What the function takes from [encoding/base64], [crypto/sha256] and
    [fmt]: [base64.StdEncoding.DecodeString], the SHA-256 digest of a
    byte slice ([sha256.New], [Write], [Sum(nil)]), and the quoting that
    the verb [%q] applies to a string. *)
Record Host : Type := mkHost {
  base64_DecodeString : string -> liberr + bytes;
  sha256_Sum : bytes -> bytes;
  fmt_q : string -> string
}.

Variable L : Library liberr Entity PromptFunction Config.
Variable H : Host.

(** The [ValidateFunc] of [ciphertext_encoding], lines 42-50: the
    warnings and the errors it returns. *)
Definition ValidateFunc (val key : string)
  : list string * list (error liberr) :=
  let v := val in
  if (negb (v =? "armored")%string && negb (v =? "base64")%string)%bool then
    ([],
     [errorString
        (fmt_q H key ++ " must be either 'armored' or 'base64', got: " ++ v)%string])
  else ([], []).

(** The errors [dataSourceDecryptRead] returns: an error of
    [getPrivateKeyPacket] or [decrypt] handed on, or the wrapper that
    [errwrap.Wrapf] builds around a package's error. *)
Inductive read_error : Type :=
| handed_on (err : error liberr)
| wrappedError (Outer : string) (Inner : liberr).

(** [errwrap.Wrapf(prefix + "{{err}}", err)] *)
Definition errwrap_Wrapf (prefix : string) (err : liberr) : read_error :=
  wrappedError (prefix ++ Error L err)%string err.

(** [dataSourceDecryptRead], lines 56-87: the resource data as the call
    leaves it and the error returned.  [None] stands for the one thing
    the embedding does not follow: a nil entity handed to [decrypt]
    because [getPrivateKeyPacket] returned neither entity nor error. *)
Definition dataSourceDecryptRead (d : ResourceData)
  : option (ResourceData * option read_error) :=
  let rawPrivateKey := Get d "private_key" in
  match getPrivateKeyPacket L (list_byte_of_string rawPrivateKey) with
  | (_, Some err) => Some (d, Some (handed_on err))
  | (None, None) => None
  | (Some privateKeyPacket, None) =>
      let encoding := Get d "ciphertext_encoding" in
      let ciphertext := list_byte_of_string (Get d "ciphertext") in
      match
        (if (encoding =? "base64")%string then
           match base64_DecodeString H (string_of_list_byte ciphertext) with
           | inl err => inl (errwrap_Wrapf "unable to decode: " err)
           | inr c => inr c
           end
         else inr ciphertext)
      with
      | inl err => Some (d, Some err)
      | inr ciphertext =>
          match decrypt L privateKeyPacket ciphertext encoding with
          | (_, Some err) => Some (d, Some (handed_on err))
          | (plaintext, None) =>
              let d1 := SetId d (Sprintf_x (sha256_Sum H plaintext)) in
              let d2 := Set_ d1 "plaintext" (string_of_list_byte plaintext) in
              Some (d2, None)
          end
      end
  end.

End DataSource.

Arguments Host liberr : clear implicits.
Arguments mkHost {liberr} base64_DecodeString sha256_Sum fmt_q.
Arguments base64_DecodeString {liberr} H s : rename.
Arguments sha256_Sum {liberr} H b : rename.
Arguments fmt_q {liberr} H s : rename.
Arguments ValidateFunc {liberr} H val key.
Arguments read_error liberr : clear implicits.
Arguments handed_on {liberr} err.
Arguments wrappedError {liberr} Outer Inner.
Arguments errwrap_Wrapf {liberr Entity PromptFunction Config} L prefix err.
Arguments dataSourceDecryptRead {liberr Entity PromptFunction Config} L H d.

(** A small instance of [Host], in the manner of [Toy]: base64 text is
    [#] followed by the data itself; the digest is the last 32 bytes of
    the input after 32 zero bytes; quoting puts the string between two
    quotation marks. *)
Module ToyHost.

Definition base64_DecodeString (s : string) : Toy.liberr + bytes :=
  match s with
  | String "#"%char data => inr (list_byte_of_string data)
  | _ => inl "illegal base64 data at input byte 0"
  end.

Definition sha256_Sum (b : bytes) : bytes :=
  rev (firstn 32 (rev b ++ repeat x00 32)).

Definition fmt_q (s : string) : string :=
  (String "034"%char s ++ String "034"%char EmptyString)%string.

Definition host : Host Toy.liberr :=
  mkHost base64_DecodeString sha256_Sum fmt_q.

(** A configuration: the key block of [Toy], a ciphertext, its encoding. *)
Definition config (ciphertext encoding : string) : ResourceData :=
  mkResourceData
    [("private_key", string_of_list_byte Toy.armored_key);
     ("ciphertext", ciphertext);
     ("ciphertext_encoding", encoding)]
    EmptyString.

Definition text_armored : string := string_of_list_byte Toy.armored_hello.

Definition text_base64 : string :=
  String "#"%char (string_of_list_byte Toy.msg_hello).

End ToyHost.

(** A second small instance, which follows the packages in three
    ways that [Toy] leaves out:
    - [armor.Decode] looks at the head of the block only; an armored
      block ends with the mark [.], and a block without it decodes, its
      body stopping with a fault once it has been read;
    - the entity reader reads the key block to its end and reports the
      fault it meets there;
    - a message has no length: it is [L] and the data for a message that
      is not encrypted, or the recipient's key id and the data, and its
      body runs to the end of the stream. *)
Module ToyLazy.

Definition armor_body (r : Reader Toy.liberr) (rest : bytes)
  : Reader Toy.liberr :=
  match rev rest with
  | "."%byte :: ydob => mkReader (rev ydob) (fault r)
  | _ => mkReader rest (Some "openpgp: invalid data: armor invalid")
  end.

Definition armor_Decode (r : Reader Toy.liberr)
  : Toy.liberr + Block Toy.liberr :=
  match content r with
  | "K"%byte :: rest =>
      inr (mkBlock "PGP PRIVATE KEY BLOCK" [] (armor_body r rest))
  | "P"%byte :: rest =>
      inr (mkBlock "PGP PUBLIC KEY BLOCK" [] (armor_body r rest))
  | "M"%byte :: rest =>
      inr (mkBlock "Message" [] (armor_body r rest))
  | _ => inl "EOF"
  end.

Definition openpgp_ReadEntity (p : packet_Reader Toy.liberr)
  : (Toy.liberr + Toy.Entity) * packet_Reader Toy.liberr :=
  match content (unread p), fault (unread p) with
  | [k], Some e => (inl e, p)
  | _, _ => Toy.openpgp_ReadEntity p
  end.

Definition openpgp_ReadMessage (r : Reader Toy.liberr)
    (keyring : list Toy.Entity) (prompt : option Toy.PromptFunction)
    (config : option Toy.Config)
  : Toy.liberr + MessageDetails Toy.liberr :=
  match content r with
  | "L"%byte :: data =>
      inr (mkMessageDetails false false (mkReader data (fault r)) None)
  | k :: data =>
      if Toy.holds_key keyring k then
        inr (mkMessageDetails true false (mkReader data (fault r)) None)
      else inl "openpgp: incorrect key"
  | [] =>
      inl match fault r with
          | Some e => e
          | None => "EOF"
          end
  end.

Definition lib
  : Library Toy.liberr Toy.Entity Toy.PromptFunction Toy.Config :=
  mkLibrary (fun e => e) "PGP PRIVATE KEY BLOCK" armor_Decode
    openpgp_ReadEntity openpgp_ReadMessage Toy.gzip_NewReader.

(** A message that is not encrypted. *)
Definition literal_msg : bytes := "L"%byte :: Toy.b "not encrypted".

(** [hello world] stored as gzip, to key 7, armored, with and without
    the end mark of the armor. *)
Definition armored_hello : bytes :=
  ["M"%byte; x07] ++ Toy.gz_hello ++ ["."%byte].

Definition armored_hello_no_end : bytes :=
  ["M"%byte; x07] ++ Toy.gz_hello.

(** A key block without the end mark of the armor. *)
Definition armored_key_no_end : bytes := ["K"%byte; x07].

(** The three bytes [68 00 69] stored as gzip, to key 7, armored; and
    the same with the message cut short by two bytes and by three bytes
    before it was armored. *)
Definition gz_data : bytes := [x1f; x8b; x68; x00; x69; x00].

Definition armored_data : bytes := ["M"%byte; x07] ++ gz_data ++ ["."%byte].

Definition armored_data_cut2 : bytes :=
  ["M"%byte; x07] ++ firstn 4 gz_data ++ ["."%byte].

Definition armored_data_cut3 : bytes :=
  ["M"%byte; x07] ++ firstn 3 gz_data ++ ["."%byte].

End ToyLazy.

(** ** Properties of [getPrivateKeyPacket] and [decrypt] *)

Section Properties.

Context {liberr Entity PromptFunction Config : Type}.

Local Abbreviation Lib := (Library liberr Entity PromptFunction Config).

Implicit Types (L : Lib) (entity : Entity) (encrypted : bytes)
  (encoding : string).

Ltac fn_unfold :=
  unfold decrypt, decrypt_effects, decrypt_call, call, decrypt_body,
    bind, or_return, read_or_return, return_if, Return, pure, emit,
    defer, ioutil_ReadAll.

Lemma armored_eqb : ("armored" =? "armored")%string = true.
Proof. reflexivity. Qed.

Lemma not_armored_eqb encoding :
  encoding <> "armored" -> (encoding =? "armored")%string = false.
Proof. intro H. now apply String.eqb_neq. Qed.

(** The call of [decrypt] with encoding ["armored"], path by path. *)
Lemma decrypt_call_armored L entity encrypted :
  decrypt_call L entity encrypted "armored" =
  match armor_Decode L (bytes_NewReader encrypted) with
  | inl err => ([], ([], Some (fmt_Errorf L "Error decoding: " err)))
  | inr block =>
      if (Type_ block =? "Message")%string then
        after_read_armored L
          (openpgp_ReadMessage L (Body block) [entity] None None)
      else ([], ([], Some (errors_New "Invalid message type")))
  end.
Proof.
  fn_unfold. rewrite armored_eqb.
  destruct (armor_Decode L (bytes_NewReader encrypted)) as [err|block];
    simpl; [reflexivity|].
  destruct (Type_ block =? "Message")%string; simpl; [|reflexivity].
  destruct (openpgp_ReadMessage L (Body block) [entity] None None)
    as [err|md]; simpl; [reflexivity|].
  destruct (fault (UnverifiedBody md)); simpl; [reflexivity|].
  destruct (gzip_NewReader L _) as [err|z]; simpl; [reflexivity|].
  destruct (fault z); reflexivity.
Qed.

(** The call of [decrypt] with any other encoding. *)
Lemma decrypt_call_raw L entity encrypted encoding :
  encoding <> "armored" ->
  decrypt_call L entity encrypted encoding =
  after_read_raw L
    (openpgp_ReadMessage L (bytes_NewReader encrypted) [entity] None None).
Proof.
  intro Hne. fn_unfold. rewrite (not_armored_eqb _ Hne).
  destruct (openpgp_ReadMessage L (bytes_NewReader encrypted) [entity]
              None None) as [err|md]; simpl; [reflexivity|].
  destruct (fault (UnverifiedBody md)); reflexivity.
Qed.

(** Both at once, through the reader handed to [openpgp.ReadMessage]. *)
Lemma decrypt_call_stream L entity encrypted encoding stream :
  message_stream L encrypted encoding = Some stream ->
  decrypt_call L entity encrypted encoding =
  (if (encoding =? "armored")%string then after_read_armored L
   else after_read_raw L)
    (openpgp_ReadMessage L stream [entity] None None).
Proof.
  unfold message_stream.
  destruct (String.eqb_spec encoding "armored") as [->|Hne].
  - rewrite decrypt_call_armored.
    destruct (armor_Decode L (bytes_NewReader encrypted)) as [err|block];
      [discriminate|].
    destruct (Type_ block =? "Message")%string; [|discriminate].
    now intros [= <-].
  - intros [= <-]. now apply decrypt_call_raw.
Qed.

(** Every result of the two tails with an error has an empty buffer. *)
Lemma after_read_armored_atomic L m out err :
  snd (after_read_armored L m) = (out, Some err) -> out = [].
Proof.
  destruct m as [e|md]; simpl; [congruence|].
  destruct (fault (UnverifiedBody md)); simpl; [congruence|].
  destruct (gzip_NewReader L _) as [e|z]; simpl; [congruence|].
  destruct (fault z); congruence.
Qed.

Lemma after_read_raw_atomic L m out err :
  snd (after_read_raw L m) = (out, Some err) -> out = [].
Proof.
  destruct m as [e|md]; simpl; [congruence|].
  destruct (fault (UnverifiedBody md)); simpl; congruence.
Qed.

(** C1. Compression asymmetry.  Once the message has been read and its
    unverified body drained without fault into [read]: with encoding
    ["armored"] the plaintext returned is what the gzip reader over
    [read] yields; with any other encoding it is [read] itself, whatever
    [read] looks like and whatever gzip would make of it. *)
Theorem decrypt_compression_asymmetry
    L entity encrypted encoding stream md :
  message_stream L encrypted encoding = Some stream ->
  openpgp_ReadMessage L stream [entity] None None = inr md ->
  fault (UnverifiedBody md) = None ->
  let read := content (UnverifiedBody md) in
  (encoding = "armored" ->
   forall z,
     gzip_NewReader L (bytes_NewReader read) = inr z ->
     fault z = None ->
     decrypt L entity encrypted encoding = (content z, None)) /\
  (encoding <> "armored" ->
   decrypt L entity encrypted encoding = (read, None)).
Proof.
  intros Hs Hm Hf read. unfold decrypt.
  rewrite (decrypt_call_stream _ _ _ _ _ Hs), Hm.
  split.
  - intros -> z Hz Hfz. rewrite armored_eqb. simpl.
    rewrite Hf. fold read. now rewrite Hz, Hfz.
  - intro Hne. rewrite (not_armored_eqb _ Hne). simpl. now rewrite Hf.
Qed.

(** C2, amended.  [decrypt] fails with ["Error reading message: ..."]
    exactly when [openpgp.ReadMessage] returns an error on the stream
    it is given with the one-entity key ring, and then returns the
    empty buffer, in either encoding.  When [openpgp.ReadMessage]
    accepts the stream, [decrypt] does not ask whether the message was
    encrypted, nor to which key: with an encoding other than
    ["armored"] the drained body is returned, whatever [IsEncrypted]
    says. *)
Theorem decrypt_message_read_error_exactly
    L entity encrypted encoding stream :
  message_stream L encrypted encoding = Some stream ->
  (forall err,
     openpgp_ReadMessage L stream [entity] None None = inl err ->
     decrypt L entity encrypted encoding =
     ([], Some (fmt_Errorf L "Error reading message: " err))) /\
  (forall out e,
     decrypt L entity encrypted encoding =
     (out, Some (fmt_Errorf L "Error reading message: " e)) ->
     exists err,
       openpgp_ReadMessage L stream [entity] None None = inl err) /\
  (forall md,
     openpgp_ReadMessage L stream [entity] None None = inr md ->
     fault (UnverifiedBody md) = None ->
     encoding <> "armored" ->
     decrypt L entity encrypted encoding =
     (content (UnverifiedBody md), None)).
Proof.
  intros Hs. unfold decrypt.
  rewrite (decrypt_call_stream _ _ _ _ _ Hs).
  split; [|split].
  - intros err ->. now destruct (encoding =? "armored")%string.
  - intros out e.
    destruct (openpgp_ReadMessage L stream [entity] None None)
      as [err|md]; [now exists err|].
    unfold fmt_Errorf.
    destruct (encoding =? "armored")%string; simpl;
      destruct (fault (UnverifiedBody md)); simpl; try discriminate.
    destruct (gzip_NewReader L _) as [err|z]; simpl; try discriminate.
    destruct (fault z); discriminate.
  - intros md -> Hf Hne. rewrite (not_armored_eqb _ Hne). simpl.
    now rewrite Hf.
Qed.

(** C3. Error atomicity: whenever [decrypt] returns an error, the
    buffer returned with it is empty. *)
Theorem decrypt_error_atomic L entity encrypted encoding out err :
  decrypt L entity encrypted encoding = (out, Some err) -> out = [].
Proof.
  unfold decrypt.
  destruct (String.eqb_spec encoding "armored") as [->|Hne].
  - rewrite decrypt_call_armored.
    case (armor_Decode L (bytes_NewReader encrypted)) as [e|block].
    + simpl. congruence.
    + case (Type_ block =? "Message")%string.
      * apply after_read_armored_atomic.
      * simpl. congruence.
  - rewrite (decrypt_call_raw _ _ _ _ Hne).
    apply after_read_raw_atomic.
Qed.

(** C4. Type-label checks: an armored block whose type is not
    [openpgp.PrivateKeyType] makes [getPrivateKeyPacket] fail with
    ["Invalid private key data"]; one whose type is not ["Message"]
    makes [decrypt] with encoding ["armored"] fail with
    ["Invalid message type"]. *)
Theorem type_label_checks L input block :
  armor_Decode L (bytes_NewReader input) = inr block ->
  (Type_ block <> openpgp_PrivateKeyType L ->
   getPrivateKeyPacket L input =
   (None, Some (errors_New "Invalid private key data"))) /\
  (Type_ block <> "Message" ->
   forall entity,
     decrypt L entity input "armored" =
     ([], Some (errors_New "Invalid message type"))).
Proof.
  intro Hd. split; intro Hne.
  - unfold getPrivateKeyPacket. rewrite Hd.
    apply String.eqb_neq in Hne. now rewrite Hne.
  - intro entity. unfold decrypt.
    rewrite decrypt_call_armored, Hd.
    apply String.eqb_neq in Hne. now rewrite Hne.
Qed.

(** C5, amended.  When [armor.Decode] itself returns an error on the
    input, [getPrivateKeyPacket] fails with that error and [decrypt]
    with encoding ["armored"] fails with ["Error decoding: ..."] made
    from it.  When [armor.Decode] returns a block, no damage found
    later is reported as an armor error: [decrypt] never fails with
    ["Error decoding: ..."], and an error of [getPrivateKeyPacket] is
    the string error for the type or the error of
    [openpgp.ReadEntity]. *)
Theorem armor_decode_error_exactly L input :
  (forall err,
     armor_Decode L (bytes_NewReader input) = inl err ->
     getPrivateKeyPacket L input = (None, Some (LibErr err)) /\
     (forall entity,
        decrypt L entity input "armored" =
        ([], Some (fmt_Errorf L "Error decoding: " err)))) /\
  (forall block,
     armor_Decode L (bytes_NewReader input) = inr block ->
     (forall entity out e,
        decrypt L entity input "armored" <>
        (out, Some (fmt_Errorf L "Error decoding: " e))) /\
     (forall oent err,
        getPrivateKeyPacket L input = (oent, Some err) ->
        err = errors_New "Invalid private key data" \/
        exists e,
          fst (openpgp_ReadEntity L (packet_NewReader (Body block)))
          = inl e /\
          err = LibErr e)).
Proof.
  split.
  - intros err Hd. split.
    + unfold getPrivateKeyPacket. now rewrite Hd.
    + intro entity. unfold decrypt. now rewrite decrypt_call_armored, Hd.
  - intros block Hd. split.
    + intros entity out e. unfold decrypt.
      rewrite decrypt_call_armored, Hd. unfold fmt_Errorf, errors_New.
      destruct (Type_ block =? "Message")%string; simpl; [|discriminate].
      destruct (openpgp_ReadMessage L (Body block) [entity] None None)
        as [err|md]; simpl; [discriminate|].
      destruct (fault (UnverifiedBody md)); simpl; [discriminate|].
      destruct (gzip_NewReader L _) as [err|z]; simpl; [discriminate|].
      destruct (fault z); discriminate.
    + intros oent err. unfold getPrivateKeyPacket. rewrite Hd.
      destruct (Type_ block =? openpgp_PrivateKeyType L)%string; simpl.
      * destruct (fst (openpgp_ReadEntity L (packet_NewReader (Body block))))
          as [e|ent]; [|discriminate].
        intros [= _ <-]. right. now exists e.
      * intros [= _ <-]. now left.
Qed.

Lemma after_read_armored_same L rm x y :
  same_unverified x y ->
  after_read_armored (with_ReadMessage L rm) y = after_read_armored L x.
Proof.
  destruct x as [e|md], y as [e'|md']; simpl; try contradiction.
  - now intros ->.
  - now intros <-.
Qed.

Lemma after_read_raw_same L rm x y :
  same_unverified x y ->
  after_read_raw (with_ReadMessage L rm) y = after_read_raw L x.
Proof.
  destruct x as [e|md], y as [e'|md']; simpl; try contradiction.
  - now intros ->.
  - now intros <-.
Qed.

(** C6. Unverified decryption: [decrypt] calls the message reader with
    its last two arguments [nil] and never looks at what the answer
    says about a signature.  Replacing [openpgp.ReadMessage] by any
    reader that, on such calls with the one-entity key ring, gives the
    same error or the same unverified body changes neither the effects
    nor the result of [decrypt], whatever the two readers say about the
    signature and whatever they do on other calls. *)
Theorem decrypt_ignores_signatures L rm entity encrypted encoding :
  (forall r,
     same_unverified (openpgp_ReadMessage L r [entity] None None)
       (rm r [entity] None None)) ->
  decrypt_call (with_ReadMessage L rm) entity encrypted encoding =
  decrypt_call L entity encrypted encoding.
Proof.
  intro Hsame.
  destruct (String.eqb_spec encoding "armored") as [->|Hne].
  - rewrite !decrypt_call_armored. simpl.
    destruct (armor_Decode L (bytes_NewReader encrypted)) as [e|block];
      [reflexivity|].
    destruct (Type_ block =? "Message")%string; [|reflexivity].
    apply after_read_armored_same, Hsame.
  - rewrite !(decrypt_call_raw _ _ _ _ Hne). simpl.
    apply after_read_raw_same, Hsame.
Qed.


(** C8. Cleanup of the gzip reader: once [gzip.NewReader] has handed
    out a reader, the effects of the call are that reader's creation
    followed by one [Close], both when draining it succeeds and when
    it fails. *)
Theorem decrypt_closes_gzip_once L entity encrypted block md z :
  armor_Decode L (bytes_NewReader encrypted) = inr block ->
  Type_ block = "Message" ->
  openpgp_ReadMessage L (Body block) [entity] None None = inr md ->
  fault (UnverifiedBody md) = None ->
  gzip_NewReader L (bytes_NewReader (content (UnverifiedBody md))) = inr z ->
  decrypt_effects L entity encrypted "armored"
  = [gzip_Reader_new; gzip_Reader_Close] /\
  count_event gzip_Reader_Close
    (decrypt_effects L entity encrypted "armored") = 1 /\
  decrypt L entity encrypted "armored" =
  match fault z with
  | Some err => ([], Some (LibErr err))
  | None => (content z, None)
  end.
Proof.
  intros Hd Ht Hm Hf Hz. unfold decrypt_effects, decrypt.
  rewrite decrypt_call_armored, Hd, Ht. simpl.
  rewrite Hm. simpl. rewrite Hf, Hz. simpl.
  repeat split.
Qed.

(** C9. The encoding matters only through [encoding == "armored"]: any
    two encodings other than ["armored"] give the same call, which has
    no effect on a gzip reader and is the same for packages that differ
    in [armor.Decode], [gzip.NewReader], the key type and the entity
    reader. *)
Theorem decrypt_encoding_only_armored
    L L' entity encrypted encoding encoding' :
  encoding <> "armored" ->
  encoding' <> "armored" ->
  (forall e, Error L e = Error L' e) ->
  (forall r,
     openpgp_ReadMessage L r [entity] None None =
     openpgp_ReadMessage L' r [entity] None None) ->
  decrypt_call L entity encrypted encoding =
  decrypt_call L' entity encrypted encoding' /\
  decrypt_effects L entity encrypted encoding = [].
Proof.
  intros Hne Hne' Herr Hrm. unfold decrypt_effects.
  rewrite (decrypt_call_raw L _ _ _ Hne), (decrypt_call_raw L' _ _ _ Hne').
  rewrite <- Hrm.
  case (openpgp_ReadMessage L (bytes_NewReader encrypted) [entity]
          None None) as [e|md]; simpl.
  - unfold fmt_Errorf. now rewrite Herr.
  - case (fault (UnverifiedBody md)) as [e|]; simpl; [|easy].
    unfold fmt_Errorf. now rewrite Herr.
Qed.

(** C10. [getPrivateKeyPacket] returns the entity of its one call of
    [openpgp.ReadEntity], whatever that call leaves unread in the
    packet reader. *)
Theorem getPrivateKeyPacket_first_entity L privateKey block entity rest :
  armor_Decode L (bytes_NewReader privateKey) = inr block ->
  Type_ block = openpgp_PrivateKeyType L ->
  openpgp_ReadEntity L (packet_NewReader (Body block)) = (inr entity, rest) ->
  getPrivateKeyPacket L privateKey = (Some entity, None).
Proof.
  intros Hd Ht Hr. unfold getPrivateKeyPacket.
  rewrite Hd, Ht, String.eqb_refl. simpl. now rewrite Hr.
Qed.

End Properties.

(** ** The theorems at work on the small instance *)

Section Runs.

Import Toy.

(** The armored message decrypts to [hello world]; the same message
    without armor, under encoding ["base64"], decrypts to the gzip
    stream itself. *)
Lemma decrypt_compression_asymmetry_witness :
  decrypt lib 7 armored_hello "armored" = (b "hello world", None) /\
  decrypt lib 7 msg_hello "base64" = (gz_hello, None).
Proof.
  split.
  - apply (proj1 (decrypt_compression_asymmetry lib 7 armored_hello
                    "armored" (mkReader msg_hello None)
                    (mkMessageDetails true false (mkReader gz_hello None)
                       None)
                    eq_refl eq_refl eq_refl)
             eq_refl (mkReader (b "hello world") None));
      reflexivity.
  - apply (proj2 (decrypt_compression_asymmetry lib 7 msg_hello
                    "base64" (mkReader msg_hello None)
                    (mkMessageDetails true false (mkReader gz_hello None)
                       None)
                    eq_refl eq_refl eq_refl)).
    discriminate.
Defined.

(** Key 9 is not the recipient of the message. *)
Lemma decrypt_message_read_error_exactly_witness :
  decrypt lib 9 armored_hello "armored" =
  ([], Some (errorString "Error reading message: openpgp: incorrect key")).
Proof.
  apply (proj1 (decrypt_message_read_error_exactly lib 9 armored_hello
                  "armored" (mkReader msg_hello None) eq_refl)
           "openpgp: incorrect key").
  reflexivity.
Defined.

(** The message cut short fails while its body is drained, and the
    bytes read before the fault are not returned. *)
Lemma decrypt_error_atomic_witness :
  fst (decrypt lib 7 armored_cut "armored") = [].
Proof.
  apply (decrypt_error_atomic lib 7 armored_cut "armored" _
           (errorString "Error reading unverified body: unexpected EOF")).
  reflexivity.
Defined.

(** A public key block is neither a private key nor a message. *)
Lemma type_label_checks_witness :
  getPrivateKeyPacket lib armored_public_key =
  (None, Some (errorString "Invalid private key data")) /\
  decrypt lib 7 armored_public_key "armored" =
  ([], Some (errorString "Invalid message type")).
Proof.
  pose proof (type_label_checks lib armored_public_key
                (mkBlock "PGP PUBLIC KEY BLOCK" [] (mkReader [x07] None))
                eq_refl) as [Hkey Hmsg].
  split.
  - apply Hkey. discriminate.
  - apply Hmsg. discriminate.
Defined.

(** An input without any armor. *)
Lemma armor_decode_error_exactly_witness :
  getPrivateKeyPacket lib (b "no armor") = (None, Some (LibErr "EOF")) /\
  decrypt lib 7 (b "no armor") "armored" =
  ([], Some (errorString "Error decoding: EOF")).
Proof.
  pose proof (proj1 (armor_decode_error_exactly lib (b "no armor"))
                "EOF" eq_refl) as [Hkey Hmsg].
  split; [exact Hkey | exact (Hmsg 7)].
Defined.

(** A message reader that reports a signature that does not verify
    leaves the call as it is. *)
Lemma decrypt_ignores_signatures_witness :
  decrypt_call (with_ReadMessage lib openpgp_ReadMessage_signed) 7
    armored_hello "armored" =
  ([gzip_Reader_new; gzip_Reader_Close], (b "hello world", None)).
Proof.
  refine (eq_trans
            (decrypt_ignores_signatures lib openpgp_ReadMessage_signed 7
               armored_hello "armored" _)
            eq_refl).
  intro r. unfold same_unverified, openpgp_ReadMessage_signed. simpl.
  destruct (openpgp_ReadMessage r _ None None); reflexivity.
Defined.


(** A gzip stream that is cut off: the reader is made, draining it
    fails, and it is closed once. *)
Lemma decrypt_closes_gzip_once_witness :
  decrypt_effects lib 7 armored_bad_gzip "armored"
  = [gzip_Reader_new; gzip_Reader_Close] /\
  count_event gzip_Reader_Close
    (decrypt_effects lib 7 armored_bad_gzip "armored") = 1 /\
  decrypt lib 7 armored_bad_gzip "armored" =
  ([], Some (LibErr "unexpected EOF")).
Proof.
  apply (decrypt_closes_gzip_once lib 7 armored_bad_gzip
           (mkBlock "Message" []
              (mkReader [x07; x04; x1f; x8b; "h"%byte; "i"%byte] None))
           (mkMessageDetails true false
              (mkReader [x1f; x8b; "h"%byte; "i"%byte] None) None)
           (mkReader [ "h"%byte; "i"%byte] (Some "unexpected EOF")));
    reflexivity.
Defined.

(** Encodings ["base64"] and ["binary"], with and without armor and
    gzip in the packages. *)
Lemma decrypt_encoding_only_armored_witness :
  decrypt_call lib 7 msg_hello "base64" =
  decrypt_call lib_bare 7 msg_hello "binary" /\
  decrypt_effects lib 7 msg_hello "base64" = [].
Proof.
  apply (decrypt_encoding_only_armored lib lib_bare 7 msg_hello
           "base64" "binary");
    try discriminate; reflexivity.
Defined.

(** A key block with entities 7 and 9: entity 7 is returned, entity 9
    is left unread. *)
Lemma getPrivateKeyPacket_first_entity_witness :
  getPrivateKeyPacket lib armored_key = (Some 7, None).
Proof.
  apply (getPrivateKeyPacket_first_entity lib armored_key
           (mkBlock "PGP PRIVATE KEY BLOCK" [] (mkReader [x07; x09] None))
           7 (mk_packet_Reader (mkReader [x09] None)));
    reflexivity.
Defined.

End Runs.

(** ** Inputs on which C2, C5 and C7 fail as they were stated *)

Section Counterexamples.

(** A message that is not encrypted is read, and its body returned, to
    a key that plays no part in it: no error, and a buffer that is not
    empty. *)
Lemma decrypt_unencrypted_counterexample :
  (exists md,
     openpgp_ReadMessage ToyLazy.lib (bytes_NewReader ToyLazy.literal_msg) [9]
       None None = inr md /\ IsEncrypted md = false) /\
  decrypt ToyLazy.lib 9 ToyLazy.literal_msg "base64" =
  (Toy.b "not encrypted", None) /\
  (forall e,
     decrypt ToyLazy.lib 9 ToyLazy.literal_msg "base64" <>
     ([], Some (fmt_Errorf ToyLazy.lib "Error reading message: " e))).
Proof.
  split; [|split].
  - eexists. split; reflexivity.
  - reflexivity.
  - intro e. discriminate.
Qed.

(** An armored message and an armored key without the end mark:
    [armor.Decode] returns a block for both; the message fails while
    its body is drained, with ["Error reading unverified body: ..."]
    and not with ["Error decoding: ..."]; the key fails in
    [openpgp.ReadEntity]. *)
Lemma malformed_armor_counterexample :
  armor_Decode ToyLazy.lib (bytes_NewReader ToyLazy.armored_hello_no_end) =
  inr (mkBlock "Message" []
         (mkReader (x07 :: Toy.gz_hello)
            (Some "openpgp: invalid data: armor invalid"))) /\
  decrypt ToyLazy.lib 7 ToyLazy.armored_hello_no_end "armored" =
  ([], Some (errorString
               "Error reading unverified body: openpgp: invalid data: armor invalid")) /\
  (forall e,
     decrypt ToyLazy.lib 7 ToyLazy.armored_hello_no_end "armored" <>
     ([], Some (fmt_Errorf ToyLazy.lib "Error decoding: " e))) /\
  armor_Decode ToyLazy.lib (bytes_NewReader ToyLazy.armored_key_no_end) =
  inr (mkBlock "PGP PRIVATE KEY BLOCK" []
         (mkReader [x07] (Some "openpgp: invalid data: armor invalid"))) /\
  fst (openpgp_ReadEntity ToyLazy.lib
         (packet_NewReader
            (mkReader [x07] (Some "openpgp: invalid data: armor invalid")))) =
  inl "openpgp: invalid data: armor invalid".
Proof.
  split; [reflexivity|]. split; [reflexivity|].
  split; [intro e; discriminate|].
  split; reflexivity.
Qed.


End Counterexamples.

(** ** Further properties of [getPrivateKeyPacket] and [decrypt] *)

Section PipelineInversions.

Context {liberr Entity PromptFunction Config : Type}.

Local Abbreviation Lib := (Library liberr Entity PromptFunction Config).

Implicit Types (L : Lib) (entity : Entity) (encrypted : bytes)
  (encoding : string).

(** An entity comes out of [getPrivateKeyPacket] only from a block that
    [armor.Decode] accepted, whose type is [openpgp.PrivateKeyType], and
    out of [openpgp.ReadEntity] on that block's body. *)
Theorem getPrivateKeyPacket_entity_inv L privateKey entity oerr :
  getPrivateKeyPacket L privateKey = (Some entity, oerr) ->
  oerr = None /\
  exists block,
    armor_Decode L (bytes_NewReader privateKey) = inr block /\
    Type_ block = openpgp_PrivateKeyType L /\
    fst (openpgp_ReadEntity L (packet_NewReader (Body block))) = inr entity.
Proof.
  unfold getPrivateKeyPacket.
  destruct (armor_Decode L (bytes_NewReader privateKey)) as [e|block];
    [discriminate|].
  destruct (String.eqb_spec (Type_ block) (openpgp_PrivateKeyType L))
    as [Ht|Ht]; simpl; [|discriminate].
  destruct (fst (openpgp_ReadEntity L (packet_NewReader (Body block))))
    as [e|ent] eqn:Hr; [discriminate|].
  intros [= <- <-]. split; [reflexivity|].
  exists block. auto.
Qed.

(** The errors of [getPrivateKeyPacket] are of three kinds, and each
    tells its stage: the error of [armor.Decode] as it is, the string
    error for a block of another type, the error of
    [openpgp.ReadEntity] as it is. *)
Theorem getPrivateKeyPacket_error_inv L privateKey oent err :
  getPrivateKeyPacket L privateKey = (oent, Some err) ->
  oent = None /\
  ((exists e,
      armor_Decode L (bytes_NewReader privateKey) = inl e /\
      err = LibErr e) \/
   (exists block,
      armor_Decode L (bytes_NewReader privateKey) = inr block /\
      Type_ block <> openpgp_PrivateKeyType L /\
      err = errors_New "Invalid private key data") \/
   (exists block e,
      armor_Decode L (bytes_NewReader privateKey) = inr block /\
      Type_ block = openpgp_PrivateKeyType L /\
      fst (openpgp_ReadEntity L (packet_NewReader (Body block))) = inl e /\
      err = LibErr e)).
Proof.
  unfold getPrivateKeyPacket.
  destruct (armor_Decode L (bytes_NewReader privateKey)) as [e|block].
  - intros [= <- <-]. split; [reflexivity|]. left. now exists e.
  - destruct (String.eqb_spec (Type_ block) (openpgp_PrivateKeyType L))
      as [Ht|Ht]; simpl.
    + destruct (fst (openpgp_ReadEntity L (packet_NewReader (Body block))))
        as [e|ent] eqn:Hr; [|discriminate].
      intros [= <- <-]. split; [reflexivity|].
      right. right. exists block, e. auto.
    + intros [= <- <-]. split; [reflexivity|].
      right. left. exists block. auto.
Qed.

(** [decrypt] returns a plaintext without error only when every stage
    went through: a stream was handed to [openpgp.ReadMessage], the
    message was read, its body drained without fault and, with encoding
    ["armored"], a gzip reader was made over the body and drained
    without fault.  The plaintext is then the output of the last
    stage. *)
Theorem decrypt_success_inv L entity encrypted encoding out :
  decrypt L entity encrypted encoding = (out, None) ->
  exists stream md,
    message_stream L encrypted encoding = Some stream /\
    openpgp_ReadMessage L stream [entity] None None = inr md /\
    fault (UnverifiedBody md) = None /\
    if (encoding =? "armored")%string then
      exists z,
        gzip_NewReader L (bytes_NewReader (content (UnverifiedBody md)))
        = inr z /\
        fault z = None /\ out = content z
    else out = content (UnverifiedBody md).
Proof.
  unfold decrypt, message_stream.
  destruct (String.eqb_spec encoding "armored") as [->|Hne].
  - rewrite decrypt_call_armored.
    destruct (armor_Decode L (bytes_NewReader encrypted)) as [e|block];
      [discriminate|].
    destruct (Type_ block =? "Message")%string; [|discriminate].
    destruct (openpgp_ReadMessage L (Body block) [entity] None None)
      as [e|md] eqn:Hm; [discriminate|]. simpl.
    destruct (fault (UnverifiedBody md)) eqn:Hf; [discriminate|].
    destruct (gzip_NewReader L _) as [e|z] eqn:Hz; [discriminate|]. simpl.
    destruct (fault z) eqn:Hfz; [discriminate|].
    intros [= <-]. exists (Body block), md. repeat split; auto.
    exists z. auto.
  - rewrite (decrypt_call_raw _ _ _ _ Hne).
    destruct (openpgp_ReadMessage L (bytes_NewReader encrypted) [entity]
                None None) as [e|md] eqn:Hm; [discriminate|]. simpl.
    destruct (fault (UnverifiedBody md)) eqn:Hf; [discriminate|].
    intros [= <-]. exists (bytes_NewReader encrypted), md. auto.
Qed.

(** Whatever the input and the encoding, a call of [decrypt] leaves no
    gzip reader open and closes none it did not make: its effects are
    none at all, or one reader made and then closed. *)
Theorem decrypt_effects_balanced L entity encrypted encoding :
  (decrypt_effects L entity encrypted encoding = [] \/
   decrypt_effects L entity encrypted encoding
   = [gzip_Reader_new; gzip_Reader_Close]) /\
  count_event gzip_Reader_new (decrypt_effects L entity encrypted encoding)
  = count_event gzip_Reader_Close
      (decrypt_effects L entity encrypted encoding).
Proof.
  unfold decrypt_effects.
  destruct (String.eqb_spec encoding "armored") as [->|Hne].
  - rewrite decrypt_call_armored.
    destruct (armor_Decode L (bytes_NewReader encrypted)) as [e|block];
      [now split; [left|]|].
    destruct (Type_ block =? "Message")%string; [|now split; [left|]].
    destruct (openpgp_ReadMessage L (Body block) [entity] None None)
      as [e|md]; simpl; [now split; [left|]|].
    destruct (fault (UnverifiedBody md)); simpl; [now split; [left|]|].
    destruct (gzip_NewReader L _) as [e|z]; simpl; [now split; [left|]|].
    now split; [right|].
  - rewrite (decrypt_call_raw _ _ _ _ Hne).
    destruct (openpgp_ReadMessage L (bytes_NewReader encrypted) [entity]
                None None) as [e|md]; simpl; [now split; [left|]|].
    destruct (fault (UnverifiedBody md)); simpl; now split; [left|].
Qed.

(** With encoding ["armored"], a body that [gzip.NewReader] refuses
    gives ["Error initializing gzip reader: ..."] and the empty buffer;
    no reader was made and none is closed. *)
Theorem decrypt_gzip_init_error L entity encrypted stream md err :
  message_stream L encrypted "armored" = Some stream ->
  openpgp_ReadMessage L stream [entity] None None = inr md ->
  fault (UnverifiedBody md) = None ->
  gzip_NewReader L (bytes_NewReader (content (UnverifiedBody md)))
  = inl err ->
  decrypt_call L entity encrypted "armored" =
  ([], ([], Some (fmt_Errorf L "Error initializing gzip reader: " err))).
Proof.
  intros Hs Hm Hf Hz.
  rewrite (decrypt_call_stream _ _ _ _ _ Hs), Hm, armored_eqb. simpl.
  now rewrite Hf, Hz.
Qed.

(** In either encoding, a fault while the unverified body is drained
    gives ["Error reading unverified body: ..."] and the empty buffer:
    the bytes read before the fault are dropped, and gzip is not
    tried on them. *)
Theorem decrypt_body_read_error L entity encrypted encoding stream md err :
  message_stream L encrypted encoding = Some stream ->
  openpgp_ReadMessage L stream [entity] None None = inr md ->
  fault (UnverifiedBody md) = Some err ->
  decrypt_call L entity encrypted encoding =
  ([], ([], Some (fmt_Errorf L "Error reading unverified body: " err))).
Proof.
  intros Hs Hm Hf.
  rewrite (decrypt_call_stream _ _ _ _ _ Hs), Hm.
  destruct (encoding =? "armored")%string; simpl; now rewrite Hf.
Qed.

(** With an encoding other than ["armored"], [decrypt] can fail in two
    ways only: [openpgp.ReadMessage] refused the input bytes, or
    draining the body failed.  It reports no armor, type or gzip
    error. *)
Theorem decrypt_raw_error_inv L entity encrypted encoding out err :
  encoding <> "armored" ->
  decrypt L entity encrypted encoding = (out, Some err) ->
  (exists e,
     openpgp_ReadMessage L (bytes_NewReader encrypted) [entity] None None
     = inl e /\
     err = fmt_Errorf L "Error reading message: " e) \/
  (exists md e,
     openpgp_ReadMessage L (bytes_NewReader encrypted) [entity] None None
     = inr md /\
     fault (UnverifiedBody md) = Some e /\
     err = fmt_Errorf L "Error reading unverified body: " e).
Proof.
  intros Hne. unfold decrypt. rewrite (decrypt_call_raw _ _ _ _ Hne).
  destruct (openpgp_ReadMessage L (bytes_NewReader encrypted) [entity]
              None None) as [e|md]; simpl.
  - intros [= _ <-]. left. now exists e.
  - destruct (fault (UnverifiedBody md)) as [e|] eqn:Hf; simpl;
      [|discriminate].
    intros [= _ <-]. right. now exists md, e.
Qed.

(** Every error of [decrypt] is one of six: the fixed string for a
    block that is not a ["Message"], a package's error behind one of
    four prefixes, or the error of the gzip reader as it is. *)
Theorem decrypt_error_inv L entity encrypted encoding out err :
  decrypt L entity encrypted encoding = (out, Some err) ->
  err = errors_New "Invalid message type" \/
  exists e,
    err = fmt_Errorf L "Error decoding: " e \/
    err = fmt_Errorf L "Error reading message: " e \/
    err = fmt_Errorf L "Error reading unverified body: " e \/
    err = fmt_Errorf L "Error initializing gzip reader: " e \/
    err = LibErr e.
Proof.
  destruct (String.eqb_spec encoding "armored") as [->|Hne].
  - unfold decrypt. rewrite decrypt_call_armored.
    destruct (armor_Decode L (bytes_NewReader encrypted)) as [e|block];
      simpl.
    { intros [= _ <-]. right. exists e. auto. }
    destruct (Type_ block =? "Message")%string; simpl.
    2: { intros [= _ <-]. now left. }
    destruct (openpgp_ReadMessage L (Body block) [entity] None None)
      as [e|md]; simpl.
    { intros [= _ <-]. right. exists e. auto. }
    destruct (fault (UnverifiedBody md)) as [e|]; simpl.
    { intros [= _ <-]. right. exists e. auto. }
    destruct (gzip_NewReader L _) as [e|z]; simpl.
    { intros [= _ <-]. right. exists e. auto. }
    destruct (fault z) as [e|]; [|discriminate].
    intros [= _ <-]. right. exists e. auto 6.
  - unfold decrypt. rewrite (decrypt_call_raw _ _ _ _ Hne).
    destruct (openpgp_ReadMessage L (bytes_NewReader encrypted) [entity]
                None None) as [e|md]; simpl.
    { intros [= _ <-]. right. exists e. auto. }
    destruct (fault (UnverifiedBody md)) as [e|]; simpl; [|discriminate].
    intros [= _ <-]. right. exists e. auto.
Qed.

End PipelineInversions.

(** ** Properties of [ValidateFunc] and [dataSourceDecryptRead] *)

Section DataSourceProperties.

Context {liberr Entity PromptFunction Config : Type}.

Local Abbreviation Lib := (Library liberr Entity PromptFunction Config).

Implicit Types (L : Lib) (H : Host liberr) (d : ResourceData)
  (entity : Entity).

(** The resource data after lines 80-84 have stored [plaintext]. *)
Local Abbreviation stored H d plaintext :=
  (Set_ (SetId d (Sprintf_x (sha256_Sum H plaintext%list))) "plaintext"
     (string_of_list_byte plaintext%list)).

(** The key as [dataSourceDecryptRead] loads it. *)
Local Abbreviation loaded_key L d :=
  (getPrivateKeyPacket L (list_byte_of_string (Get d "private_key"))).

Lemma Get_Set_same d key value : Get (Set_ d key value) key = value.
Proof. unfold Get, Set_. simpl. now rewrite String.eqb_refl. Qed.

Lemma Get_Set_other d key value key' :
  key' <> key -> Get (Set_ d key value) key' = Get d key'.
Proof.
  intro Hne. unfold Get, Set_. simpl.
  destruct (String.eqb_spec key key') as [->|_]; [contradiction|reflexivity].
Qed.

Lemma Get_SetId d v key : Get (SetId d v) key = Get d key.
Proof. reflexivity. Qed.

Lemma Sprintf_x_length b :
  String.length (Sprintf_x b) = 2 * List.length b.
Proof.
  induction b as [|x rest IH]; simpl; [reflexivity|].
  rewrite IH. now rewrite <- plus_n_Sm.
Qed.

(** [dataSourceDecryptRead] once the key is loaded. *)
Lemma read_with_key L H d entity :
  loaded_key L d = (Some entity, None) ->
  dataSourceDecryptRead L H d =
  match
    (if (Get d "ciphertext_encoding" =? "base64")%string then
       match base64_DecodeString H (Get d "ciphertext") with
       | inl err => inl (errwrap_Wrapf L "unable to decode: " err)
       | inr c => inr c
       end
     else inr (list_byte_of_string (Get d "ciphertext")))
  with
  | inl err => Some (d, Some err)
  | inr c =>
      match decrypt L entity c (Get d "ciphertext_encoding") with
      | (_, Some err) => Some (d, Some (handed_on err))
      | (plaintext, None) => Some (stored H d plaintext, None)
      end
  end.
Proof.
  intro Hk. unfold dataSourceDecryptRead. rewrite Hk.
  now rewrite string_of_list_byte_of_string.
Qed.

(** The key is loaded, or its error is what the call returns. *)
Lemma read_key_cases L H d :
  (exists entity, loaded_key L d = (Some entity, None)) \/
  (exists err,
     loaded_key L d = (None, Some err) /\
     dataSourceDecryptRead L H d = Some (d, Some (handed_on err))).
Proof.
  unfold dataSourceDecryptRead, getPrivateKeyPacket.
  destruct (armor_Decode L _) as [e|block].
  - right. now exists (LibErr e).
  - destruct (Type_ block =? openpgp_PrivateKeyType L)%string; simpl.
    + destruct (fst (openpgp_ReadEntity L (packet_NewReader (Body block))))
        as [e|entity].
      * right. now exists (LibErr e).
      * left. now exists entity.
    + right. now exists (errors_New "Invalid private key data").
Qed.

(** A call without error has loaded the key, decrypted the bytes of the
    ciphertext (base64-decoded first when the encoding says so) and
    stored the plaintext. *)
Lemma read_success_cases L H d d' :
  dataSourceDecryptRead L H d = Some (d', None) ->
  exists entity c plaintext,
    loaded_key L d = (Some entity, None) /\
    (if (Get d "ciphertext_encoding" =? "base64")%string
     then base64_DecodeString H (Get d "ciphertext") = inr c
     else c = list_byte_of_string (Get d "ciphertext")) /\
    decrypt L entity c (Get d "ciphertext_encoding") = (plaintext, None) /\
    d' = stored H d plaintext.
Proof.
  destruct (read_key_cases L H d) as [[entity Hk]|(err & _ & ->)];
    [|discriminate].
  rewrite (read_with_key _ _ _ _ Hk).
  destruct (Get d "ciphertext_encoding" =? "base64")%string.
  - destruct (base64_DecodeString H (Get d "ciphertext")) as [e|c] eqn:Hc;
      [discriminate|].
    destruct (decrypt L entity c _) as [p [e|]] eqn:Hd; [discriminate|].
    intros [= <-]. now exists entity, c, p.
  - destruct (decrypt L entity _ _) as [p [e|]] eqn:Hd; [discriminate|].
    intros [= <-]. now exists entity, (list_byte_of_string (Get d "ciphertext")), p.
Qed.

(** [ValidateFunc] never warns, reports at most one error, and reports
    none exactly for the values ["armored"] and ["base64"]. *)
Theorem ValidateFunc_accepts_iff H val key :
  fst (ValidateFunc H val key) = [] /\
  List.length (snd (ValidateFunc H val key)) <= 1 /\
  (snd (ValidateFunc H val key) = [] <->
   val = "armored" \/ val = "base64").
Proof.
  unfold ValidateFunc.
  destruct (String.eqb_spec val "armored") as [Ha|Ha];
    destruct (String.eqb_spec val "base64") as [Hb|Hb]; simpl;
    repeat split; auto; try discriminate.
  intros [?|?]; contradiction.
Qed.

(** A call that returns an error leaves the resource data as it was:
    no id and no plaintext are set. *)
Theorem dataSourceDecryptRead_error_keeps_data L H d d' err :
  dataSourceDecryptRead L H d = Some (d', Some err) -> d' = d.
Proof.
  destruct (read_key_cases L H d) as [[entity Hk]|(e & _ & ->)];
    [|congruence].
  rewrite (read_with_key _ _ _ _ Hk).
  destruct (if (_ =? "base64")%string then _ else _) as [e|c];
    [congruence|].
  destruct (decrypt L entity c _) as [p [e|]]; congruence.
Qed.

(** The errors of [dataSourceDecryptRead], in the order of its stages:
    the error of [getPrivateKeyPacket]; with the key loaded and encoding
    ["base64"], the wrapped error of the base64 decoder; with the key
    loaded, the error of [decrypt].  A base64 error never arises under
    another encoding. *)
Theorem dataSourceDecryptRead_error_inv L H d d' err :
  dataSourceDecryptRead L H d = Some (d', Some err) ->
  (exists e,
     loaded_key L d = (None, Some e) /\ err = handed_on e) \/
  (exists entity,
     loaded_key L d = (Some entity, None) /\
     ((exists e,
         Get d "ciphertext_encoding" = "base64" /\
         base64_DecodeString H (Get d "ciphertext") = inl e /\
         err = errwrap_Wrapf L "unable to decode: " e) \/
      (exists c out e,
         decrypt L entity c (Get d "ciphertext_encoding") = (out, Some e) /\
         err = handed_on e))).
Proof.
  destruct (read_key_cases L H d) as [[entity Hk]|(e & Hk & ->)].
  - rewrite (read_with_key _ _ _ _ Hk). intro Hr.
    right. exists entity. split; [exact Hk|].
    destruct (String.eqb_spec (Get d "ciphertext_encoding") "base64")
      as [He|He].
    + destruct (base64_DecodeString H (Get d "ciphertext")) as [e|c].
      * left. exists e. injection Hr as _ <-. auto.
      * right. destruct (decrypt L entity c _) as [p [e|]] eqn:Hd;
          [|discriminate].
        exists c, p, e. injection Hr as _ <-. auto.
    + right.
      destruct (decrypt L entity _ _) as [p [e|]] eqn:Hd; [|discriminate].
      exists (list_byte_of_string (Get d "ciphertext")), p, e.
      injection Hr as _ <-. auto.
  - intros [= _ <-]. left. now exists e.
Qed.

(** After a call without error, the attribute [plaintext] holds the
    plaintext that [decrypt] returned for the loaded key, the id is the
    hexadecimal digest of that plaintext, and every other attribute
    reads as before. *)
Theorem dataSourceDecryptRead_success_inv L H d d' :
  dataSourceDecryptRead L H d = Some (d', None) ->
  exists entity c plaintext,
    loaded_key L d = (Some entity, None) /\
    decrypt L entity c (Get d "ciphertext_encoding") = (plaintext, None) /\
    Get d' "plaintext" = string_of_list_byte plaintext /\
    Id d' = Sprintf_x (sha256_Sum H plaintext) /\
    (forall key, key <> "plaintext" -> Get d' key = Get d key).
Proof.
  intro Hr.
  destruct (read_success_cases _ _ _ _ Hr) as (entity & c & p & Hk & _ & Hd & ->).
  exists entity, c, p.
  split; [exact Hk|]. split; [exact Hd|].
  split; [apply Get_Set_same|]. split; [reflexivity|].
  intros key Hne. now rewrite (Get_Set_other _ _ _ _ Hne).
Qed.

(** After a call without error the id is the hexadecimal digest of the
    stored plaintext: the two are never out of step. *)
Theorem dataSourceDecryptRead_id_of_plaintext L H d d' :
  dataSourceDecryptRead L H d = Some (d', None) ->
  Id d' =
  Sprintf_x (sha256_Sum H (list_byte_of_string (Get d' "plaintext"))).
Proof.
  intro Hr.
  destruct (read_success_cases _ _ _ _ Hr) as (entity & c & p & _ & _ & _ & ->).
  rewrite Get_Set_same. now rewrite list_byte_of_string_of_list_byte.
Qed.

(** The id depends on the plaintext alone: two calls without error
    that store the same plaintext set the same id, whatever the keys,
    ciphertexts, encodings and packages. *)
Theorem dataSourceDecryptRead_same_plaintext_same_id
    L1 L2 H d1 d2 d1' d2' :
  dataSourceDecryptRead L1 H d1 = Some (d1', None) ->
  dataSourceDecryptRead L2 H d2 = Some (d2', None) ->
  Get d1' "plaintext" = Get d2' "plaintext" ->
  Id d1' = Id d2'.
Proof.
  intros H1 H2 Heq.
  destruct (read_success_cases _ _ _ _ H1) as (e1 & c1 & p1 & _ & _ & _ & ->).
  destruct (read_success_cases _ _ _ _ H2) as (e2 & c2 & p2 & _ & _ & _ & ->).
  rewrite !Get_Set_same in Heq. simpl.
  rewrite <- (list_byte_of_string_of_list_byte p1),
          <- (list_byte_of_string_of_list_byte p2).
  now rewrite Heq.
Qed.

(** Reading again gives the same: a call on the data that a call without
    error left behind succeeds too, with the same id and the same
    attributes. *)
Theorem dataSourceDecryptRead_rerun_stable L H d d' :
  dataSourceDecryptRead L H d = Some (d', None) ->
  exists d'',
    dataSourceDecryptRead L H d' = Some (d'', None) /\
    Id d'' = Id d' /\
    (forall key, Get d'' key = Get d' key).
Proof.
  intro Hr.
  destruct (read_success_cases _ _ _ _ Hr)
    as (entity & c & p & Hk & Hc & Hd & ->).
  exists (stored H (stored H d p) p).
  assert (Hin : forall key, key <> "plaintext" ->
                 Get (stored H d p) key = Get d key)
    by (intros key Hne; now rewrite (Get_Set_other _ _ _ _ Hne)).
  split; [|split].
  - rewrite (read_with_key L H (stored H d p) entity).
    + rewrite !Hin by discriminate.
      destruct (Get d "ciphertext_encoding" =? "base64")%string.
      * rewrite Hc. now rewrite Hd.
      * rewrite <- Hc. now rewrite Hd.
    + rewrite Hin by discriminate. exact Hk.
  - reflexivity.
  - intro key. destruct (String.eqb_spec key "plaintext") as [->|Hne].
    + now rewrite !Get_Set_same.
    + now rewrite (Get_Set_other (SetId (stored H d p) _) _ _ _ Hne).
Qed.

(** The id has two characters for every byte of the digest: with a
    digest of 32 bytes, 64 characters. *)
Theorem dataSourceDecryptRead_id_length L H d d' :
  (forall b, List.length (sha256_Sum H b) = 32) ->
  dataSourceDecryptRead L H d = Some (d', None) ->
  String.length (Id d') = 64.
Proof.
  intros Hlen Hr.
  destruct (read_success_cases _ _ _ _ Hr) as (entity & c & p & _ & _ & _ & ->).
  simpl. now rewrite Sprintf_x_length, Hlen.
Qed.

(** With the key loaded and encoding ["base64"], text that the base64
    decoder refuses gives the wrapped error ["unable to decode: ..."];
    [decrypt] is not tried on the text. *)
Theorem dataSourceDecryptRead_base64_decode_error L H d entity e :
  loaded_key L d = (Some entity, None) ->
  Get d "ciphertext_encoding" = "base64" ->
  base64_DecodeString H (Get d "ciphertext") = inl e ->
  dataSourceDecryptRead L H d =
  Some (d, Some (wrappedError ("unable to decode: " ++ Error L e)%string e)).
Proof.
  intros Hk He Hc. rewrite (read_with_key _ _ _ _ Hk), He. simpl.
  now rewrite Hc.
Qed.

(** End to end with encoding ["base64"]: the text is base64-decoded,
    the decoded bytes go to [openpgp.ReadMessage] as they are, and the
    drained body is stored as the plaintext, without armor and without
    gzip. *)
Theorem dataSourceDecryptRead_base64_end_to_end L H d entity c md :
  loaded_key L d = (Some entity, None) ->
  Get d "ciphertext_encoding" = "base64" ->
  base64_DecodeString H (Get d "ciphertext") = inr c ->
  openpgp_ReadMessage L (bytes_NewReader c) [entity] None None = inr md ->
  fault (UnverifiedBody md) = None ->
  dataSourceDecryptRead L H d =
  Some (stored H d (content (UnverifiedBody md)), None).
Proof.
  intros Hk He Hc Hm Hf. rewrite (read_with_key _ _ _ _ Hk), He. simpl.
  rewrite Hc. unfold decrypt.
  rewrite decrypt_call_raw by discriminate.
  rewrite Hm. simpl. now rewrite Hf.
Qed.

(** End to end with encoding ["armored"]: the bytes of the text are
    armor-decoded, the body of the ["Message"] block is read with the
    loaded key, the drained body is gunzipped, and the output is stored
    as the plaintext. *)
Theorem dataSourceDecryptRead_armored_end_to_end L H d entity block md z :
  loaded_key L d = (Some entity, None) ->
  Get d "ciphertext_encoding" = "armored" ->
  armor_Decode L (bytes_NewReader (list_byte_of_string (Get d "ciphertext")))
  = inr block ->
  Type_ block = "Message" ->
  openpgp_ReadMessage L (Body block) [entity] None None = inr md ->
  fault (UnverifiedBody md) = None ->
  gzip_NewReader L (bytes_NewReader (content (UnverifiedBody md))) = inr z ->
  fault z = None ->
  dataSourceDecryptRead L H d = Some (stored H d (content z), None).
Proof.
  intros Hk He Hd Ht Hm Hf Hz Hfz.
  rewrite (read_with_key _ _ _ _ Hk), He. simpl.
  unfold decrypt. rewrite decrypt_call_armored, Hd, Ht. simpl.
  rewrite Hm. simpl. now rewrite Hf, Hz, Hfz.
Qed.

(** [dataSourceDecryptRead] does not check the encoding itself.  With
    an encoding that is neither ["armored"] nor ["base64"], the bytes of
    the text go to [openpgp.ReadMessage] as they are (no base64, no
    armor, no gzip), and the outcome is that of the message reader and
    of draining the body. *)
Theorem dataSourceDecryptRead_other_encoding L H d entity :
  loaded_key L d = (Some entity, None) ->
  Get d "ciphertext_encoding" <> "armored" ->
  Get d "ciphertext_encoding" <> "base64" ->
  dataSourceDecryptRead L H d =
  match
    openpgp_ReadMessage L
      (bytes_NewReader (list_byte_of_string (Get d "ciphertext")))
      [entity] None None
  with
  | inl e =>
      Some (d, Some (handed_on (fmt_Errorf L "Error reading message: " e)))
  | inr md =>
      match fault (UnverifiedBody md) with
      | Some e =>
          Some (d, Some (handed_on
                           (fmt_Errorf L "Error reading unverified body: " e)))
      | None => Some (stored H d (content (UnverifiedBody md)), None)
      end
  end.
Proof.
  intros Hk Ha Hb. rewrite (read_with_key _ _ _ _ Hk).
  apply String.eqb_neq in Hb. rewrite Hb.
  unfold decrypt. rewrite (decrypt_call_raw _ _ _ _ Ha).
  destruct (openpgp_ReadMessage L _ [entity] None None) as [e|md]; simpl;
    [reflexivity|].
  now destruct (fault (UnverifiedBody md)).
Qed.

End DataSourceProperties.

(** ** The further properties at work on the small instance *)

Section MoreRuns.

Import Toy ToyHost.

(** An armored message to key 7 whose body is not a gzip stream. *)
Local Abbreviation armored_plain :=
  ["M"%byte; x07; x02; "h"%byte; "i"%byte].

(** [hello world] to key 7, neither compressed nor armored, as base64
    text. *)
Local Abbreviation text_plain_base64 :=
  (String "#"%char
     (string_of_list_byte ([x07; x0b] ++ b "hello world"))).

Lemma sha256_Sum_length (x : bytes) : List.length (sha256_Sum x) = 32.
Proof.
  unfold sha256_Sum.
  rewrite length_rev, length_firstn, length_app, length_rev, repeat_length.
  apply Nat.min_l, Nat.le_add_l.
Qed.

Lemma getPrivateKeyPacket_entity_inv_witness :
  @None (error liberr) = None /\
  exists block,
    armor_Decode (bytes_NewReader armored_key) = inr block /\
    Type_ block = "PGP PRIVATE KEY BLOCK" /\
    fst (openpgp_ReadEntity (packet_NewReader (Body block))) = inr 7.
Proof.
  exact (getPrivateKeyPacket_entity_inv lib armored_key 7 None eq_refl).
Defined.

Lemma getPrivateKeyPacket_error_inv_witness :
  @None Entity = None /\
  ((exists e,
      armor_Decode (bytes_NewReader armored_public_key) = inl e /\
      errorString "Invalid private key data" = LibErr e) \/
   (exists block,
      armor_Decode (bytes_NewReader armored_public_key) = inr block /\
      Type_ block <> "PGP PRIVATE KEY BLOCK" /\
      errorString (liberr := liberr) "Invalid private key data"
      = errors_New "Invalid private key data") \/
   (exists block e,
      armor_Decode (bytes_NewReader armored_public_key) = inr block /\
      Type_ block = "PGP PRIVATE KEY BLOCK" /\
      fst (openpgp_ReadEntity (packet_NewReader (Body block))) = inl e /\
      errorString "Invalid private key data" = LibErr e)).
Proof.
  exact (getPrivateKeyPacket_error_inv lib armored_public_key None
           (errorString "Invalid private key data") eq_refl).
Defined.

Lemma decrypt_success_inv_witness :
  exists stream md,
    message_stream lib armored_hello "armored" = Some stream /\
    openpgp_ReadMessage stream [7] None None = inr md /\
    fault (UnverifiedBody md) = None /\
    exists z,
      gzip_NewReader (bytes_NewReader (content (UnverifiedBody md)))
      = inr z /\
      fault z = None /\ b "hello world" = content z.
Proof.
  exact (decrypt_success_inv lib 7 armored_hello "armored"
           (b "hello world") eq_refl).
Defined.

Lemma decrypt_gzip_init_error_witness :
  decrypt_call lib 7 armored_plain "armored" =
  ([], ([], Some (errorString
                    "Error initializing gzip reader: gzip: invalid header"))).
Proof.
  exact (decrypt_gzip_init_error lib 7 armored_plain
           (mkReader [x07; x02; "h"%byte; "i"%byte] None)
           (mkMessageDetails true false
              (mkReader ["h"%byte; "i"%byte] None) None)
           "gzip: invalid header" eq_refl eq_refl eq_refl eq_refl).
Defined.

Lemma decrypt_body_read_error_witness :
  decrypt_call lib 7 (firstn 10 msg_hello) "base64" =
  ([], ([], Some (errorString
                    "Error reading unverified body: unexpected EOF"))).
Proof.
  exact (decrypt_body_read_error lib 7 (firstn 10 msg_hello) "base64"
           (mkReader (firstn 10 msg_hello) None)
           (mkMessageDetails true false
              (mkReader (firstn 8 gz_hello) (Some "unexpected EOF")) None)
           "unexpected EOF" eq_refl eq_refl eq_refl).
Defined.

Lemma decrypt_raw_error_inv_witness :
  (exists e,
     openpgp_ReadMessage (bytes_NewReader msg_hello) [9] None None = inl e /\
     errorString "Error reading message: openpgp: incorrect key"
     = fmt_Errorf lib "Error reading message: " e) \/
  (exists md e,
     openpgp_ReadMessage (bytes_NewReader msg_hello) [9] None None = inr md /\
     fault (UnverifiedBody md) = Some e /\
     errorString "Error reading message: openpgp: incorrect key"
     = fmt_Errorf lib "Error reading unverified body: " e).
Proof.
  refine (decrypt_raw_error_inv lib 9 msg_hello "base64" []
            (errorString "Error reading message: openpgp: incorrect key")
            _ eq_refl).
  discriminate.
Defined.

Lemma decrypt_error_inv_witness :
  LibErr "unexpected EOF" = errors_New "Invalid message type" \/
  exists e,
    LibErr "unexpected EOF" = fmt_Errorf lib "Error decoding: " e \/
    LibErr "unexpected EOF" = fmt_Errorf lib "Error reading message: " e \/
    LibErr "unexpected EOF"
    = fmt_Errorf lib "Error reading unverified body: " e \/
    LibErr "unexpected EOF"
    = fmt_Errorf lib "Error initializing gzip reader: " e \/
    LibErr "unexpected EOF" = LibErr e.
Proof.
  exact (decrypt_error_inv lib 7 armored_bad_gzip "armored" []
           (LibErr "unexpected EOF") eq_refl).
Defined.

Lemma dataSourceDecryptRead_error_keeps_data_witness :
  config "zzz" "base64" = config "zzz" "base64".
Proof.
  exact (eq_sym
           (dataSourceDecryptRead_error_keeps_data lib host
              (config "zzz" "base64") (config "zzz" "base64")
              (wrappedError
                 "unable to decode: illegal base64 data at input byte 0"
                 "illegal base64 data at input byte 0")
              eq_refl)).
Defined.

Lemma dataSourceDecryptRead_success_inv_witness :
  exists entity c plaintext,
    getPrivateKeyPacket lib
      (list_byte_of_string (Get (config text_armored "armored") "private_key"))
    = (Some entity, None) /\
    decrypt lib entity c "armored" = (plaintext, None) /\
    "hello world" = string_of_list_byte plaintext /\
    "00000000000000000000000000000000000000000068656c6c6f20776f726c64"
    = Sprintf_x (sha256_Sum plaintext) /\
    (forall key,
       key <> "plaintext" ->
       Get (Set_ (SetId (config text_armored "armored")
                    "00000000000000000000000000000000000000000068656c6c6f20776f726c64")
              "plaintext" "hello world") key
       = Get (config text_armored "armored") key).
Proof.
  exact (dataSourceDecryptRead_success_inv lib host
           (config text_armored "armored")
           (Set_ (SetId (config text_armored "armored")
                    "00000000000000000000000000000000000000000068656c6c6f20776f726c64")
              "plaintext" "hello world")
           eq_refl).
Defined.

Local Abbreviation id_hello :=
  "00000000000000000000000000000000000000000068656c6c6f20776f726c64".

Local Abbreviation done_with d plaintext :=
  (Set_ (SetId d id_hello) "plaintext" plaintext).

Lemma dataSourceDecryptRead_error_inv_witness :
  (exists e,
     getPrivateKeyPacket lib
       (list_byte_of_string (Get (config "zzz" "base64") "private_key"))
     = (None, Some e) /\
     wrappedError "unable to decode: illegal base64 data at input byte 0"
       "illegal base64 data at input byte 0" = handed_on e) \/
  (exists entity,
     getPrivateKeyPacket lib
       (list_byte_of_string (Get (config "zzz" "base64") "private_key"))
     = (Some entity, None) /\
     ((exists e,
         Get (config "zzz" "base64") "ciphertext_encoding" = "base64" /\
         base64_DecodeString (Get (config "zzz" "base64") "ciphertext")
         = inl e /\
         wrappedError "unable to decode: illegal base64 data at input byte 0"
           "illegal base64 data at input byte 0"
         = errwrap_Wrapf lib "unable to decode: " e) \/
      (exists c out e,
         decrypt lib entity c
           (Get (config "zzz" "base64") "ciphertext_encoding")
         = (out, Some e) /\
         wrappedError "unable to decode: illegal base64 data at input byte 0"
           "illegal base64 data at input byte 0" = handed_on e))).
Proof.
  exact (dataSourceDecryptRead_error_inv lib host (config "zzz" "base64")
           (config "zzz" "base64")
           (wrappedError
              "unable to decode: illegal base64 data at input byte 0"
              "illegal base64 data at input byte 0")
           eq_refl).
Defined.

Lemma dataSourceDecryptRead_id_of_plaintext_witness :
  id_hello = Sprintf_x (sha256_Sum (list_byte_of_string "hello world")).
Proof.
  exact (dataSourceDecryptRead_id_of_plaintext lib host
           (config text_armored "armored")
           (done_with (config text_armored "armored") "hello world")
           eq_refl).
Defined.

(** The armored message and the plain message as base64 text both
    decrypt to [hello world], and get the same id. *)
Lemma dataSourceDecryptRead_same_plaintext_same_id_witness :
  Id (done_with (config text_armored "armored") "hello world") =
  Id (done_with (config text_plain_base64 "base64") "hello world").
Proof.
  exact (dataSourceDecryptRead_same_plaintext_same_id lib
           (with_ReadMessage lib openpgp_ReadMessage_signed) host
           (config text_armored "armored")
           (config text_plain_base64 "base64")
           (done_with (config text_armored "armored") "hello world")
           (done_with (config text_plain_base64 "base64") "hello world")
           eq_refl eq_refl eq_refl).
Defined.

Lemma dataSourceDecryptRead_rerun_stable_witness :
  exists d'',
    dataSourceDecryptRead lib host
      (done_with (config text_armored "armored") "hello world")
    = Some (d'', None) /\
    Id d'' = id_hello /\
    (forall key,
       Get d'' key
       = Get (done_with (config text_armored "armored") "hello world") key).
Proof.
  exact (dataSourceDecryptRead_rerun_stable lib host
           (config text_armored "armored")
           (done_with (config text_armored "armored") "hello world")
           eq_refl).
Defined.

Lemma dataSourceDecryptRead_id_length_witness :
  String.length id_hello = 64.
Proof.
  exact (dataSourceDecryptRead_id_length lib host
           (config text_armored "armored")
           (done_with (config text_armored "armored") "hello world")
           sha256_Sum_length eq_refl).
Defined.

Lemma dataSourceDecryptRead_base64_decode_error_witness :
  dataSourceDecryptRead lib host (config text_armored "base64") =
  Some (config text_armored "base64",
        Some (wrappedError
                "unable to decode: illegal base64 data at input byte 0"
                "illegal base64 data at input byte 0")).
Proof.
  exact (dataSourceDecryptRead_base64_decode_error lib host
           (config text_armored "base64") 7
           "illegal base64 data at input byte 0" eq_refl eq_refl eq_refl).
Defined.

(** Under encoding ["base64"] the gzip stream is stored as it is. *)
Lemma dataSourceDecryptRead_base64_end_to_end_witness :
  dataSourceDecryptRead lib host (config text_base64 "base64") =
  Some (Set_ (SetId (config text_base64 "base64")
                (Sprintf_x (sha256_Sum gz_hello)))
          "plaintext" (string_of_list_byte gz_hello),
        None).
Proof.
  exact (dataSourceDecryptRead_base64_end_to_end lib host
           (config text_base64 "base64") 7 msg_hello
           (mkMessageDetails true false (mkReader gz_hello None) None)
           eq_refl eq_refl eq_refl eq_refl eq_refl).
Defined.

Lemma dataSourceDecryptRead_armored_end_to_end_witness :
  dataSourceDecryptRead lib host (config text_armored "armored") =
  Some (done_with (config text_armored "armored") "hello world", None).
Proof.
  exact (dataSourceDecryptRead_armored_end_to_end lib host
           (config text_armored "armored") 7
           (mkBlock "Message" [] (mkReader msg_hello None))
           (mkMessageDetails true false (mkReader gz_hello None) None)
           (mkReader (b "hello world") None)
           eq_refl eq_refl eq_refl eq_refl eq_refl eq_refl eq_refl eq_refl).
Defined.

(** Under the encoding ["raw"], which [ValidateFunc] refuses, the
    base64 text goes to the message reader with its [#]. *)
Lemma dataSourceDecryptRead_other_encoding_witness :
  dataSourceDecryptRead lib host (config text_base64 "raw") =
  Some (config text_base64 "raw",
        Some (handed_on
                (errorString "Error reading message: openpgp: incorrect key"))).
Proof.
  refine (dataSourceDecryptRead_other_encoding lib host
            (config text_base64 "raw") 7 eq_refl _ _);
    discriminate.
Defined.

End MoreRuns.
